(** * timetravel.c: an LD_PRELOAD shim that pins the wall clock

    Shallow embedding of [pmd/preprocessing/timetravel.c].  The shim exports
    [time], [__gettimeofday], [gettimeofday] and [clock_gettime]; each one
    calls the genuine libc function found with [dlsym(RTLD_NEXT, ...)] and
    then overwrites the seconds it reported with the static [travel].

    The genuine functions and the dynamic loader are not part of the file:
    they are a parameter ([libc]) of the whole development, and may do
    anything to the memory the caller can see and to the outside world. *)

From Stdlib Require Import ZArith Lia List.
From stdpp Require Import base gmap strings list.
Import ListNotations.

Local Open Scope Z_scope.

(** ** Machine integers *)

(** Conversion to a signed [w]-bit integer (two's complement wrap-around). *)
Definition wrap (w : Z) (z : Z) : Z := (z + 2 ^ (w - 1)) mod 2 ^ w - 2 ^ (w - 1).

(** [int] is 32 bits wide, [time_t] is a 64-bit [long] (LP64). *)
Definition to_int (z : Z) : Z := wrap 32 z.
Definition to_time_t (z : Z) : Z := wrap 64 z.

Definition int_range (z : Z) : Prop := - 2 ^ 31 <= z < 2 ^ 31.
Definition time_t_range (z : Z) : Prop := - 2 ^ 63 <= z < 2 ^ 63.

(** ** Constants of the system headers

    [<time.h>] and [<sys/time.h>] are not part of the repository; these are
    the values of glibc on Linux.  [tv_sec] is the first member of both
    [struct timeval] and [struct timespec], the sub-second member follows
    the 8-byte [time_t]. *)
Definition CLOCK_REALTIME : Z := 0.
Definition CLOCK_MONOTONIC : Z := 1.
Definition offsetof_tv_sec : Z := 0.
Definition offsetof_tv_usec : Z := 8.
Definition offsetof_tv_nsec : Z := 8.

(** ** Pointers and memory

    A pointer handed in by the caller is an address, [0] being [NULL].  The
    one automatic variable whose address the shim takes ([res] in [time])
    lives in a frame of the shim; its address is never null.  The memory
    the caller can see maps the address of a scalar object to its value. *)
Inductive ptr : Type :=
| Abs (a : Z)
| Auto (i : nat).

Definition is_null (p : ptr) : bool :=
  match p with
  | Abs a => a =? 0
  | Auto _ => false
  end.

(** [&x->tv_sec] for [x] a [struct timeval *] or [struct timespec *]. *)
Definition tv_sec_of (x : Z) : ptr := Abs (x + offsetof_tv_sec).

(** Everything outside the shim: the caller-visible memory and the rest of
    the world (the real clocks among it). *)
Record env (W : Type) : Type := Env {
  heap : gmap Z Z;
  world : W
}.
Arguments Env {W} _ _.
Arguments heap {W} _.
Arguments world {W} _.

(** The dynamic loader and the code behind the addresses it hands out.
    [dlsym_next name] is [dlsym(RTLD_NEXT, name)], [0] when the symbol is
    missing.  [call_* f args e] runs the code at address [f] with the given
    signature; [None] is a fault inside that code. *)
Record libc (W : Type) : Type := Libc {
  dlsym_next : string -> Z;
  call_time : Z -> Z -> env W -> option (Z * env W);
  call_gettimeofday : Z -> Z -> Z -> env W -> option (Z * env W);
  call_clock_gettime : Z -> Z -> Z -> env W -> option (Z * env W)
}.
Arguments Libc {W} _ _ _ _.
Arguments dlsym_next {W} _ _.
Arguments call_time {W} _ _ _ _.
Arguments call_gettimeofday {W} _ _ _ _ _.
Arguments call_clock_gettime {W} _ _ _ _ _.

(** The state of a process with the shim loaded: the statics of the file,
    the frame of the running interceptor, the outside, and two traces kept
    for the proofs (names looked up, caller addresses stored to). *)
Record state (W : Type) : Type := State {
  travel : Z;
  libc_time : Z;
  libc_gettimeofday : Z;
  libc_clock_gettime : Z;
  autos : list Z;
  outside : env W;
  lookups : list string;
  stores : list Z
}.
Arguments State {W} _ _ _ _ _ _ _ _.
Arguments travel {W} _.
Arguments libc_time {W} _.
Arguments libc_gettimeofday {W} _.
Arguments libc_clock_gettime {W} _.
Arguments autos {W} _.
Arguments outside {W} _.
Arguments lookups {W} _.
Arguments stores {W} _.

(** [static time_t travel = 1661140800;] and the three function pointers,
    all null at load time. *)
Definition travel_default : Z := 1661140800.

Definition init {W : Type} (e : env W) : state W :=
  State travel_default 0 0 0 [] e [] [].

(** ** The monad of the shim: state, and a fault ([None]) *)

Definition M (W A : Type) : Type := state W -> option (A * state W).

Definition ret {W A : Type} (a : A) : M W A := fun s => Some (a, s).

Definition bind {W A B : Type} (m : M W A) (k : A -> M W B) : M W B :=
  fun s => match m s with
           | Some (a, s') => k a s'
           | None => None
           end.

Declare Scope shim_scope.
Delimit Scope shim_scope with shim.
Notation "'let*' x ':=' m 'in' k" := (bind m (fun x => k))
  (at level 10, x name, m at level 100, k at level 200) : shim_scope.
Notation "m '>>' k" := (bind m (fun _ => k))
  (at level 100, k at level 200, right associativity) : shim_scope.

Section Shim.

Context {W : Type} (L : libc W).

Local Open Scope shim_scope.

(** *** Primitive steps *)

Definition set_heap (a v : Z) (s : state W) : state W :=
  State (travel s) (libc_time s) (libc_gettimeofday s) (libc_clock_gettime s)
        (autos s) (Env (<[a := v]> (heap (outside s))) (world (outside s)))
        (lookups s) (stores s ++ [a]).

Definition set_autos (l : list Z) (s : state W) : state W :=
  State (travel s) (libc_time s) (libc_gettimeofday s) (libc_clock_gettime s)
        l (outside s) (lookups s) (stores s).

Definition set_outside (e : env W) (s : state W) : state W :=
  State (travel s) (libc_time s) (libc_gettimeofday s) (libc_clock_gettime s)
        (autos s) e (lookups s) (stores s).

(** [*p = v].  A store through [NULL] faults. *)
Definition store (p : ptr) (v : Z) : M W unit :=
  fun s =>
    match p with
    | Abs a => if a =? 0 then None else Some (tt, set_heap a v s)
    | Auto i =>
        if (i <? length (autos s))%nat
        then Some (tt, set_autos (<[i := v]> (autos s)) s)
        else None
    end.

(** Entering the scope of an automatic variable initialised with [v],
    reading it, and leaving its scope. *)
Definition alloca (v : Z) : M W nat :=
  fun s => Some (length (autos s), set_autos (autos s ++ [v]) s).

Definition load_auto (i : nat) : M W Z :=
  fun s => match autos s !! i with
           | Some v => Some (v, s)
           | None => None
           end.

Definition leave : M W unit :=
  fun s => Some (tt, set_autos (removelast (autos s)) s).

(** [dlsym(RTLD_NEXT, name)] *)
Definition dlsym (name : string) : M W Z :=
  fun s => Some (dlsym_next L name,
                 State (travel s) (libc_time s) (libc_gettimeofday s)
                       (libc_clock_gettime s) (autos s) (outside s)
                       (lookups s ++ [name]) (stores s)).

(** A call through a function pointer: a null pointer faults, otherwise
    the code behind it runs on the outside. *)
Definition call (f : Z) (code : Z -> env W -> option (Z * env W)) : M W Z :=
  fun s =>
    if f =? 0 then None
    else match code f (outside s) with
         | Some (r, e) => Some (r, set_outside e s)
         | None => None
         end.

(** Reading and assigning the function-local statics. *)
Definition read {A : Type} (field : state W -> A) : M W A :=
  fun s => Some (field s, s).

Definition assign_libc_time (f : Z) : M W unit :=
  fun s => Some (tt, State (travel s) f (libc_gettimeofday s) (libc_clock_gettime s)
                           (autos s) (outside s) (lookups s) (stores s)).

Definition assign_libc_gettimeofday (f : Z) : M W unit :=
  fun s => Some (tt, State (travel s) (libc_time s) f (libc_clock_gettime s)
                           (autos s) (outside s) (lookups s) (stores s)).

Definition assign_libc_clock_gettime (f : Z) : M W unit :=
  fun s => Some (tt, State (travel s) (libc_time s) (libc_gettimeofday s) f
                           (autos s) (outside s) (lookups s) (stores s)).

(** *** The functions of timetravel.c *)

(** [static void set_travel(time_t *seconds)] *)
Definition set_travel (seconds : ptr) : M W unit :=
  if is_null seconds then ret tt
  else let* t := read travel in store seconds t.

(** [time_t real_time(time_t *x)] *)
Definition real_time (x : Z) : M W Z :=
  let* f := read libc_time in
  (if f =? 0
   then let* g := dlsym "time"%string in assign_libc_time g
   else ret tt) >>
  let* f := read libc_time in
  let* r := call f (fun f => call_time L f x) in
  ret (to_time_t r).

(** [time_t time(time_t *x)]: [res] is an automatic variable whose address
    is passed to [set_travel]. *)
Definition time (x : Z) : M W Z :=
  let* r := real_time x in
  let* res := alloca r in
  set_travel (Abs x) >>
  set_travel (Auto res) >>
  let* v := load_auto res in
  leave >>
  ret v.

(** [time_t real_gettimeofday(struct timeval *x, void *y)]: the [int] of
    libc is converted to the [time_t] the proxy is declared to return. *)
Definition real_gettimeofday (x y : Z) : M W Z :=
  let* f := read libc_gettimeofday in
  (if f =? 0
   then let* g := dlsym "gettimeofday"%string in assign_libc_gettimeofday g
   else ret tt) >>
  let* f := read libc_gettimeofday in
  let* r := call f (fun f => call_gettimeofday L f x y) in
  ret (to_time_t (to_int r)).

(** [int __gettimeofday(struct timeval *x, void *y)] *)
Definition __gettimeofday (x y : Z) : M W Z :=
  let* r := real_gettimeofday x y in
  let res := to_int r in
  if negb (res =? 0) then ret res
  else set_travel (tv_sec_of x) >> ret 0.

(** [int gettimeofday(struct timeval *x, void *y)] *)
Definition gettimeofday (x y : Z) : M W Z := __gettimeofday x y.

(** The call through [libc_clock_gettime] at the head of [clock_gettime]
    (lines 88 to 90); [__func__] is the string [clock_gettime]. *)
Definition libc_clock_gettime_call (x y : Z) : M W Z :=
  let* f := read libc_clock_gettime in
  (if f =? 0
   then let* g := dlsym "clock_gettime"%string in assign_libc_clock_gettime g
   else ret tt) >>
  let* f := read libc_clock_gettime in
  let* r := call f (fun f => call_clock_gettime L f x y) in
  ret (to_int r).

(** [int clock_gettime(clockid_t x, struct timespec *y)] *)
Definition clock_gettime (x y : Z) : M W Z :=
  let* res := libc_clock_gettime_call x y in
  if negb (res =? 0) || negb (CLOCK_REALTIME =? x) then ret res
  else set_travel (tv_sec_of y) >> ret 0.

(** *** A process: calls into the shim, and the host program in between

    Between two calls the host program and the world may change the
    outside at will; the statics of the shim have internal linkage and
    their address never escapes, so nothing else can reach them. *)
Inductive event : Type :=
| Call_time (x : Z)
| Call___gettimeofday (x y : Z)
| Call_gettimeofday (x y : Z)
| Call_clock_gettime (x y : Z)
| Host (h : env W -> env W).

Definition step (ev : event) : M W (option Z) :=
  match ev with
  | Call_time x => let* r := time x in ret (Some r)
  | Call___gettimeofday x y => let* r := __gettimeofday x y in ret (Some r)
  | Call_gettimeofday x y => let* r := gettimeofday x y in ret (Some r)
  | Call_clock_gettime x y => let* r := clock_gettime x y in ret (Some r)
  | Host h => fun s => Some (None, set_outside (h (outside s)) s)
  end.

Fixpoint run (evs : list event) : M W (list (option Z)) :=
  match evs with
  | [] => ret []
  | ev :: evs' =>
      let* r := step ev in
      let* rs := run evs' in
      ret (r :: rs)
  end.

(** *** Vocabulary of the statements

    The handle a proxy calls through and the names it looks up on the way,
    given the value [h] of its static at entry. *)
Definition resolved (h : Z) (name : string) : Z :=
  if h =? 0 then dlsym_next L name else h.

Definition looked_up (h : Z) (name : string) : list string :=
  if h =? 0 then [name] else [].

Definition lookup_count (name : string) (s : state W) : nat :=
  count_occ String.string_dec (lookups s) name.

(** The static that caches the address of a symbol (null for a symbol the
    shim never asks for), and the symbol an event makes the shim resolve. *)
Definition handle_of (name : string) (s : state W) : Z :=
  if String.eqb name "time" then libc_time s
  else if String.eqb name "gettimeofday" then libc_gettimeofday s
  else if String.eqb name "clock_gettime" then libc_clock_gettime s
  else 0.

Definition symbol_of (ev : event) : option string :=
  match ev with
  | Call_time _ => Some "time"%string
  | Call___gettimeofday _ _ => Some "gettimeofday"%string
  | Call_gettimeofday _ _ => Some "gettimeofday"%string
  | Call_clock_gettime _ _ => Some "clock_gettime"%string
  | Host _ => None
  end.

(** The cache is consistent with the trace of lookups: a name was looked
    up exactly when its handle is set, never twice, and the handle is what
    the loader answered. *)
Definition cache_inv (s : state W) : Prop :=
  NoDup (lookups s)
  /\ (forall name, In name (lookups s) <-> handle_of name s <> 0)
  /\ (forall name, handle_of name s <> 0 -> handle_of name s = dlsym_next L name).

(** What a proxy leaves behind, whichever libc sits under it. *)
Record proxy_frame (s s1 : state W) : Prop := ProxyFrame {
  frame_travel : travel s1 = travel s;
  frame_autos : autos s1 = autos s;
  frame_stores : stores s1 = stores s
}.

(** What one event does to the statics and the traces of the shim. *)
Definition step_effect (ev : event) (s s' : state W) : Prop :=
  travel s' = travel s /\ autos s' = autos s
  /\ match symbol_of ev with
     | Some name =>
         handle_of name s' = resolved (handle_of name s) name
         /\ handle_of name s' <> 0
         /\ lookups s' = lookups s ++ looked_up (handle_of name s) name
         /\ (forall n, n <> name -> handle_of n s' = handle_of n s)
     | None =>
         lookups s' = lookups s /\ (forall n, handle_of n s' = handle_of n s)
     end.

(** The one cell of the caller an event may make the shim store to: the
    pointee of [time], the [tv_sec] of the record of the time-of-day
    calls, the [tv_sec] of the record of [clock_gettime] when the clock is
    [CLOCK_REALTIME]. *)
Definition seconds_cell (ev : event) : option Z :=
  match ev with
  | Call_time x => Some x
  | Call___gettimeofday x _ => Some (x + offsetof_tv_sec)
  | Call_gettimeofday x _ => Some (x + offsetof_tv_sec)
  | Call_clock_gettime x y =>
      if CLOCK_REALTIME =? x then Some (y + offsetof_tv_sec) else None
  | Host _ => None
  end.

End Shim.

Arguments seconds_cell {W} _.
Arguments Call_time {W} _.
Arguments Call___gettimeofday {W} _ _.
Arguments Call_gettimeofday {W} _ _.
Arguments Call_clock_gettime {W} _ _.
Arguments Host {W} _.
Arguments symbol_of {W} _.
Arguments handle_of {W} _ _.
Arguments lookup_count {W} _ _.

(** ** Two concrete libcs, to run the shim on *)

(** A libc whose clock ticks once per query: the world is the pair of the
    real seconds and the sub-second part.  Its [clock_gettime] knows the
    clocks 0 and 1 and rejects every other selector with [-1]. *)
Definition ticking : libc (Z * Z) :=
  Libc
    (fun name =>
       if String.eqb name "time"%string then 4096
       else if String.eqb name "gettimeofday"%string then 4112
       else if String.eqb name "clock_gettime"%string then 4128
       else 0)
    (fun _ x e =>
       let '(sec, sub) := world e in
       Some (sec, Env (if x =? 0 then heap e else <[x := sec]> (heap e))
                      (sec + 1, sub)))
    (fun _ x y e =>
       let '(sec, sub) := world e in
       Some (0, Env (if x =? 0 then heap e
                     else <[x + offsetof_tv_usec := sub]>
                            (<[x + offsetof_tv_sec := sec]> (heap e)))
                    (sec + 1, sub)))
    (fun _ clk y e =>
       let '(sec, sub) := world e in
       if y =? 0 then None
       else if (clk =? 0) || (clk =? 1)
       then Some (0, Env (<[y + offsetof_tv_nsec := sub * 1000]>
                            (<[y + offsetof_tv_sec := sec]> (heap e)))
                         (sec + 1, sub))
       else Some (-1, e)).

(** A libc whose three queries all fail: [time] returns [(time_t)-1], the
    other two return [-1], and none of them writes. *)
Definition failing : libc unit :=
  Libc (fun _ => 4096)
       (fun _ _ e => Some (-1, e))
       (fun _ _ _ e => Some (-1, e))
       (fun _ _ _ e => Some (-1, e)).


Definition now : env (Z * Z) := Env ∅ (1793318400, 250000).

(** A short life of a process: queries of every shape, and the host
    setting the real clock forward in between. *)
Definition sample_run : list (@event (Z * Z)) :=
  [Call_time 0;
   Host (fun e => Env (heap e) (2000000000, 7));
   Call_gettimeofday 80 0;
   Call_time 64;
   Call___gettimeofday 96 0;
   Call_clock_gettime CLOCK_MONOTONIC 112;
   Call_clock_gettime CLOCK_REALTIME 112].

(** ** Facts about the conversions *)

Lemma wrap_range (w z : Z) : 0 < w -> - 2 ^ (w - 1) <= wrap w z < 2 ^ (w - 1).
Proof.
  intros Hw. unfold wrap.
  assert (H2 : 2 ^ w = 2 * 2 ^ (w - 1)).
  { replace w with (Z.succ (w - 1)) at 1 by lia. apply Z.pow_succ_r. lia. }
  assert (Hp : 0 < 2 ^ (w - 1)) by (apply Z.pow_pos_nonneg; lia).
  pose proof (Z.mod_pos_bound (z + 2 ^ (w - 1)) (2 ^ w)) as Hm.
  lia.
Qed.

Lemma wrap_id (w z : Z) :
  0 < w -> - 2 ^ (w - 1) <= z < 2 ^ (w - 1) -> wrap w z = z.
Proof.
  intros Hw Hz. unfold wrap.
  assert (H2 : 2 ^ w = 2 * 2 ^ (w - 1)).
  { replace w with (Z.succ (w - 1)) at 1 by lia. apply Z.pow_succ_r. lia. }
  rewrite Z.mod_small by lia. lia.
Qed.

Lemma to_int_range (z : Z) : int_range (to_int z).
Proof. apply (wrap_range 32 z). lia. Qed.

Lemma to_time_t_range (z : Z) : time_t_range (to_time_t z).
Proof. apply (wrap_range 64 z). lia. Qed.

Lemma to_int_id (z : Z) : int_range z -> to_int z = z.
Proof. intros H. apply (wrap_id 32 z); [lia | exact H]. Qed.

Lemma to_time_t_id (z : Z) : time_t_range z -> to_time_t z = z.
Proof. intros H. apply (wrap_id 64 z); [lia | exact H]. Qed.

(** An [int] survives the trip through [time_t] that the result of libc's
    [gettimeofday] takes in [real_gettimeofday] and [__gettimeofday]. *)
Lemma to_int_via_time_t (z : Z) : to_int (to_time_t (to_int z)) = to_int z.
Proof.
  pose proof (to_int_range z) as H. unfold int_range in H.
  rewrite (to_time_t_id (to_int z)).
  - apply to_int_id. exact H.
  - unfold time_t_range. lia.
Qed.

(** ** The proxies and interceptors, as equations *)

(** Inverting a proxy that returned, after rewriting with its equation. *)
Ltac proxy_inv H :=
  simpl in H;
  match type of H with
  | (if ?c then _ else _) = _ => destruct c; [discriminate H |]
  end;
  match type of H with
  | match ?c with _ => _ end = _ => destruct c as [[r0 e0] |]; [| discriminate H]
  end;
  injection H as <- <-.

Section Equations.

Context {W : Type} (L : libc W).

Ltac proxy_eq handle name code :=
  match goal with
  | s : state _ |- _ =>
      destruct s as [t h1 h2 h3 au out lk st];
      unfold resolved, looked_up, bind, read, dlsym, assign_libc_time,
        assign_libc_gettimeofday, assign_libc_clock_gettime, call, ret,
        set_outside; simpl;
      let h := eval simpl in (handle (State t h1 h2 h3 au out lk st)) in
      let Hh := fresh "Hh" in
      destruct (h =? 0) eqn:Hh; simpl;
      [ destruct (name =? 0); [reflexivity |];
        destruct (code name out) as [[r e] |]; reflexivity
      | rewrite Hh, app_nil_r;
        destruct (code h out) as [[r e] |]; reflexivity ]
  end.

Lemma real_time_eq (x : Z) (s : state W) :
  real_time L x s =
  let f := resolved L (libc_time s) "time" in
  if f =? 0 then None
  else match call_time L f x (outside s) with
       | Some (r, e) =>
           Some (to_time_t r,
                 State (travel s) f (libc_gettimeofday s) (libc_clock_gettime s)
                       (autos s) e
                       (lookups s ++ looked_up (libc_time s) "time") (stores s))
       | None => None
       end.
Proof. unfold real_time. proxy_eq (@libc_time W) (dlsym_next L "time") (fun f => call_time L f x). Qed.

Lemma real_gettimeofday_eq (x y : Z) (s : state W) :
  real_gettimeofday L x y s =
  let f := resolved L (libc_gettimeofday s) "gettimeofday" in
  if f =? 0 then None
  else match call_gettimeofday L f x y (outside s) with
       | Some (r, e) =>
           Some (to_time_t (to_int r),
                 State (travel s) (libc_time s) f (libc_clock_gettime s)
                       (autos s) e
                       (lookups s ++ looked_up (libc_gettimeofday s) "gettimeofday")
                       (stores s))
       | None => None
       end.
Proof. unfold real_gettimeofday. proxy_eq (@libc_gettimeofday W) (dlsym_next L "gettimeofday")
    (fun f => call_gettimeofday L f x y). Qed.

Lemma libc_clock_gettime_call_eq (x y : Z) (s : state W) :
  libc_clock_gettime_call L x y s =
  let f := resolved L (libc_clock_gettime s) "clock_gettime" in
  if f =? 0 then None
  else match call_clock_gettime L f x y (outside s) with
       | Some (r, e) =>
           Some (to_int r,
                 State (travel s) (libc_time s) (libc_gettimeofday s) f
                       (autos s) e
                       (lookups s ++ looked_up (libc_clock_gettime s) "clock_gettime")
                       (stores s))
       | None => None
       end.
Proof.
  unfold libc_clock_gettime_call. proxy_eq (@libc_clock_gettime W) (dlsym_next L "clock_gettime")
    (fun f => call_clock_gettime L f x y).
Qed.

(** [set_travel] on a caller pointer: nothing through [NULL], one store of
    [travel] otherwise. *)
Lemma set_travel_Abs (a : Z) (s : state W) :
  set_travel (Abs a) s = Some (tt, if a =? 0 then s else set_heap a (travel s) s).
Proof.
  unfold set_travel, bind, read, store, ret; simpl.
  destruct (a =? 0) eqn:Ha; simpl; rewrite ?Ha; reflexivity.
Qed.

Lemma set_travel_tv_sec (x : Z) (s : state W) :
  set_travel (tv_sec_of x) s =
  Some (tt, if x =? 0 then s else set_heap (x + offsetof_tv_sec) (travel s) s).
Proof.
  unfold tv_sec_of. rewrite set_travel_Abs.
  unfold offsetof_tv_sec. rewrite Z.add_0_r. reflexivity.
Qed.

(** The automatic [res] of [time]: allocated, overwritten, read, released. *)
Lemma res_round_trip (au : list Z) (r t : Z) :
  (length au <? length (au ++ [r]))%nat = true
  /\ <[length au := t]> (au ++ [r]) !! length au = Some t
  /\ removelast (<[length au := t]> (au ++ [r])) = au.
Proof.
  assert (Hins : <[length au := t]> (au ++ [r]) = au ++ [t]).
  { replace (length au) with (length au + 0)%nat at 1 by lia.
    rewrite insert_app_r. reflexivity. }
  rewrite Hins. repeat split.
  - apply Nat.ltb_lt. rewrite length_app. simpl. lia.
  - apply list_lookup_middle. reflexivity.
  - apply removelast_last.
Qed.

Lemma time_eq (x : Z) (s : state W) :
  time L x s =
  match real_time L x s with
  | Some (r, s1) =>
      Some (travel s1, if x =? 0 then s1 else set_heap x (travel s1) s1)
  | None => None
  end.
Proof.
  unfold time, bind at 1.
  destruct (real_time L x s) as [[r s1] |]; [| reflexivity].
  destruct s1 as [t h1 h2 h3 au out lk st].
  destruct (res_round_trip au r t) as (Hlt & Hget & Hrm).
  unfold alloca, bind, set_travel, read, store, load_auto, leave, ret,
    set_autos, set_heap; simpl.
  destruct (x =? 0) eqn:Hx; simpl; rewrite ?Hx; unfold bind; simpl;
    rewrite Hlt; simpl; rewrite Hget; simpl; rewrite Hrm; reflexivity.
Qed.

Lemma __gettimeofday_eq (x y : Z) (s : state W) :
  __gettimeofday L x y s =
  match real_gettimeofday L x y s with
  | Some (r, s1) =>
      if to_int r =? 0
      then Some (0, if x =? 0 then s1
                    else set_heap (x + offsetof_tv_sec) (travel s1) s1)
      else Some (to_int r, s1)
  | None => None
  end.
Proof.
  unfold __gettimeofday, bind at 1.
  destruct (real_gettimeofday L x y s) as [[r s1] |]; [| reflexivity].
  destruct (to_int r =? 0); simpl; [| reflexivity].
  unfold bind. rewrite set_travel_tv_sec. reflexivity.
Qed.

Lemma clock_gettime_eq (x y : Z) (s : state W) :
  clock_gettime L x y s =
  match libc_clock_gettime_call L x y s with
  | Some (res, s1) =>
      if (res =? 0) && (CLOCK_REALTIME =? x)
      then Some (0, if y =? 0 then s1
                    else set_heap (y + offsetof_tv_sec) (travel s1) s1)
      else Some (res, s1)
  | None => None
  end.
Proof.
  unfold clock_gettime, bind at 1.
  destruct (libc_clock_gettime_call L x y s) as [[res s1] |]; [| reflexivity].
  destruct (res =? 0), (CLOCK_REALTIME =? x); simpl; try reflexivity.
  unfold bind. rewrite set_travel_tv_sec. reflexivity.
Qed.

Lemma real_time_frame (x : Z) (s : state W) (r : Z) (s1 : state W) :
  real_time L x s = Some (r, s1) -> proxy_frame s s1.
Proof. rewrite real_time_eq. intros H. proxy_inv H. split; reflexivity. Qed.

Lemma real_gettimeofday_frame (x y : Z) (s : state W) (r : Z) (s1 : state W) :
  real_gettimeofday L x y s = Some (r, s1) -> proxy_frame s s1.
Proof. rewrite real_gettimeofday_eq. intros H. proxy_inv H. split; reflexivity. Qed.

Lemma libc_clock_gettime_call_frame (x y : Z) (s : state W) (r : Z) (s1 : state W) :
  libc_clock_gettime_call L x y s = Some (r, s1) -> proxy_frame s s1.
Proof.
  rewrite libc_clock_gettime_call_eq. intros H. proxy_inv H. split; reflexivity.
Qed.

(** Results of the proxies are already of their C type. *)
Lemma real_gettimeofday_int (x y : Z) (s : state W) (r : Z) (s1 : state W) :
  real_gettimeofday L x y s = Some (r, s1) -> int_range r /\ to_int r = r.
Proof.
  rewrite real_gettimeofday_eq. intros H. proxy_inv H.
  pose proof (to_int_range r0) as Hr.
  rewrite (to_time_t_id (to_int r0)).
  - split; [exact Hr | apply to_int_id; exact Hr].
  - unfold int_range in Hr. unfold time_t_range. lia.
Qed.

(** One store of [set_heap]: the cell it writes, and every other cell. *)
Lemma set_heap_same (a v : Z) (s : state W) :
  heap (outside (set_heap a v s)) !! a = Some v.
Proof. simpl. apply lookup_insert_eq. Qed.

Lemma set_heap_other (a v b : Z) (s : state W) :
  b <> a -> heap (outside (set_heap a v s)) !! b = heap (outside s) !! b.
Proof. intros Hb. simpl. apply lookup_insert_ne. congruence. Qed.

End Equations.

(** ** Substitution of the seconds *)

Section Substitution.

Context {W : Type} (L : libc W).

(** [time] returns [travel] whenever libc's [time] returns at all, and
    stores it through a non-null [x]. *)
Lemma time_returns_travel (x : Z) (s : state W) (g : Z) (s1 : state W) :
  real_time L x s = Some (g, s1) ->
  time L x s = Some (travel s, if x =? 0 then s1 else set_heap x (travel s) s1).
Proof.
  intros H. rewrite time_eq, H.
  rewrite (frame_travel _ _ (real_time_frame L x s g s1 H)). reflexivity.
Qed.

Lemma __gettimeofday_success (x y : Z) (s : state W) (s1 : state W) :
  real_gettimeofday L x y s = Some (0, s1) ->
  __gettimeofday L x y s =
  Some (0, if x =? 0 then s1 else set_heap (x + offsetof_tv_sec) (travel s) s1).
Proof.
  intros H. rewrite __gettimeofday_eq, H.
  rewrite (frame_travel _ _ (real_gettimeofday_frame L x y s 0 s1 H)). reflexivity.
Qed.

Lemma __gettimeofday_failure (x y : Z) (s : state W) (g : Z) (s1 : state W) :
  real_gettimeofday L x y s = Some (g, s1) -> g <> 0 ->
  __gettimeofday L x y s = Some (g, s1).
Proof.
  intros H Hg. rewrite __gettimeofday_eq, H.
  destruct (real_gettimeofday_int L x y s g s1 H) as [_ ->].
  destruct (Z.eqb_spec g 0); [contradiction | reflexivity].
Qed.

Lemma clock_gettime_success (y : Z) (s : state W) (s1 : state W) :
  libc_clock_gettime_call L CLOCK_REALTIME y s = Some (0, s1) ->
  clock_gettime L CLOCK_REALTIME y s =
  Some (0, if y =? 0 then s1 else set_heap (y + offsetof_tv_sec) (travel s) s1).
Proof.
  intros H. rewrite clock_gettime_eq, H.
  rewrite (frame_travel _ _ (libc_clock_gettime_call_frame L _ y s 0 s1 H)).
  reflexivity.
Qed.

Lemma clock_gettime_failure (x y : Z) (s : state W) (g : Z) (s1 : state W) :
  libc_clock_gettime_call L x y s = Some (g, s1) -> g <> 0 ->
  clock_gettime L x y s = Some (g, s1).
Proof.
  intros H Hg. rewrite clock_gettime_eq, H.
  destruct (Z.eqb_spec g 0); [contradiction | reflexivity].
Qed.

Lemma clock_gettime_other_clock (x y : Z) (s : state W) :
  x <> CLOCK_REALTIME ->
  clock_gettime L x y s = libc_clock_gettime_call L x y s.
Proof.
  intros Hx. rewrite clock_gettime_eq.
  destruct (libc_clock_gettime_call L x y s) as [[g s1] |]; [| reflexivity].
  destruct (Z.eqb_spec CLOCK_REALTIME x); [congruence |].
  rewrite andb_false_r. reflexivity.
Qed.

End Substitution.

(** ** Runs of a process *)

Section Runs.

Context {W : Type} (L : libc W).

Lemma real_time_effect (x : Z) (s : state W) (g : Z) (s1 : state W) :
  real_time L x s = Some (g, s1) -> step_effect L (Call_time x) s s1.
Proof.
  rewrite real_time_eq. intros H. simpl in H.
  destruct (Z.eqb_spec (resolved L (libc_time s) "time") 0) as [| Hf];
    [discriminate H |].
  destruct (call_time L _ x (outside s)) as [[r0 e0] |]; [| discriminate H].
  injection H as <- <-.
  repeat split; simpl; try reflexivity; try assumption.
  intros n Hn. unfold handle_of; simpl.
  destruct (String.eqb_spec n "time"); [contradiction | reflexivity].
Qed.

Lemma real_gettimeofday_effect (x y : Z) (s : state W) (g : Z) (s1 : state W) :
  real_gettimeofday L x y s = Some (g, s1) ->
  step_effect L (Call_gettimeofday x y) s s1.
Proof.
  rewrite real_gettimeofday_eq. intros H. simpl in H.
  destruct (Z.eqb_spec (resolved L (libc_gettimeofday s) "gettimeofday") 0)
    as [| Hf]; [discriminate H |].
  destruct (call_gettimeofday L _ x y (outside s)) as [[r0 e0] |];
    [| discriminate H].
  injection H as <- <-.
  repeat split; simpl; try reflexivity; try assumption.
  intros n Hn. unfold handle_of; simpl.
  destruct (String.eqb_spec n "gettimeofday"); [contradiction |].
  destruct (String.eqb n "time"); reflexivity.
Qed.

Lemma libc_clock_gettime_call_effect (x y : Z) (s : state W) (g : Z) (s1 : state W) :
  libc_clock_gettime_call L x y s = Some (g, s1) ->
  step_effect L (Call_clock_gettime x y) s s1.
Proof.
  rewrite libc_clock_gettime_call_eq. intros H. simpl in H.
  destruct (Z.eqb_spec (resolved L (libc_clock_gettime s) "clock_gettime") 0)
    as [| Hf]; [discriminate H |].
  destruct (call_clock_gettime L _ x y (outside s)) as [[r0 e0] |];
    [| discriminate H].
  injection H as <- <-.
  repeat split; simpl; try reflexivity; try assumption.
  intros n Hn. unfold handle_of; simpl.
  destruct (String.eqb_spec n "clock_gettime"); [contradiction |].
  destruct (String.eqb n "time"), (String.eqb n "gettimeofday"); reflexivity.
Qed.

Lemma step_effect_set_heap (ev : @event W) (s s1 : state W) (a v : Z) (b : bool) :
  step_effect L ev s s1 ->
  step_effect L ev s (if b then s1 else set_heap a v s1).
Proof.
  destruct b; intros H; exact H.
Qed.

Lemma step_sound (ev : @event W) (s : state W) (r : option Z) (s' : state W) :
  step L ev s = Some (r, s') -> step_effect L ev s s'.
Proof.
  destruct ev as [x | x y | x y | x y | h]; unfold step, bind, ret.
  - rewrite time_eq.
    destruct (real_time L x s) as [[g s1] |] eqn:Hg; [| discriminate].
    intros H. injection H as _ <-.
    apply step_effect_set_heap, (real_time_effect x s g s1 Hg).
  - rewrite __gettimeofday_eq.
    destruct (real_gettimeofday L x y s) as [[g s1] |] eqn:Hg; [| discriminate].
    pose proof (real_gettimeofday_effect x y s g s1 Hg) as He.
    destruct (to_int g =? 0); intros H; injection H as _ <-;
      [apply (step_effect_set_heap (Call_gettimeofday x y)) |]; exact He.
  - unfold gettimeofday. rewrite __gettimeofday_eq.
    destruct (real_gettimeofday L x y s) as [[g s1] |] eqn:Hg; [| discriminate].
    pose proof (real_gettimeofday_effect x y s g s1 Hg) as He.
    destruct (to_int g =? 0); intros H; injection H as _ <-;
      [apply step_effect_set_heap |]; exact He.
  - rewrite clock_gettime_eq.
    destruct (libc_clock_gettime_call L x y s) as [[g s1] |] eqn:Hg;
      [| discriminate].
    pose proof (libc_clock_gettime_call_effect x y s g s1 Hg) as He.
    destruct ((g =? 0) && (CLOCK_REALTIME =? x)); intros H;
      injection H as _ <-; [apply step_effect_set_heap |]; exact He.
  - intros H. injection H as _ <-. repeat split; reflexivity.
Qed.

(** A handle that is set stays as it is, and its name is not looked up
    again. *)
Lemma step_effect_stable (ev : @event W) (s s' : state W) (n : string) :
  step_effect L ev s s' -> handle_of n s <> 0 ->
  handle_of n s' = handle_of n s /\ lookup_count n s' = lookup_count n s.
Proof.
  intros (_ & _ & He) Hn. unfold lookup_count.
  destruct (symbol_of ev) as [name |].
  - destruct He as (Hres & _ & Hlk & Hoth). rewrite Hlk, count_occ_app.
    destruct (String.eqb_spec n name) as [-> | Hne].
    + unfold resolved, looked_up in *.
      destruct (Z.eqb_spec (handle_of name s) 0); [contradiction |].
      simpl. split; [exact Hres | lia].
    + split; [apply Hoth, Hne |].
      unfold looked_up. destruct (handle_of name s =? 0); simpl; [| lia].
      destruct (String.string_dec name n); [congruence | lia].
  - destruct He as (Hlk & Hh). rewrite Hlk. split; [apply Hh | reflexivity].
Qed.

Lemma step_effect_cache_inv (ev : @event W) (s s' : state W) :
  step_effect L ev s s' -> cache_inv L s -> cache_inv L s'.
Proof.
  intros (_ & _ & He) (Hnd & Hin & Hdl). unfold cache_inv.
  destruct (symbol_of ev) as [name |].
  - destruct He as (Hres & Hnz & Hlk & Hoth). rewrite Hlk.
    unfold resolved, looked_up in *.
    destruct (Z.eqb_spec (handle_of name s) 0) as [Hz | Hz].
    + assert (Hfresh : ~ In name (lookups s)).
      { intros Hi. apply Hin in Hi. contradiction. }
      split; [| split].
      * apply NoDup_app. repeat split.
        -- exact Hnd.
        -- intros m Hm Hm'. apply list_elem_of_In in Hm, Hm'.
           destruct Hm' as [<- | []]. contradiction.
        -- apply NoDup_singleton.
      * intros m. rewrite in_app_iff. simpl.
        destruct (String.eqb_spec m name) as [-> | Hne].
        -- split; [intros _; exact Hnz | intros _; right; left; reflexivity].
        -- rewrite (Hoth m Hne), <- Hin. split; [| tauto].
           intros [Hi | [He | []]]; [exact Hi | congruence].
      * intros m Hm. destruct (String.eqb_spec m name) as [-> | Hne].
        -- exact Hres.
        -- rewrite (Hoth m Hne) in *. apply Hdl, Hm.
    + rewrite app_nil_r.
      assert (Hsame : forall m, handle_of m s' = handle_of m s).
      { intros m. destruct (String.eqb_spec m name) as [-> | Hne];
          [exact Hres | apply Hoth, Hne]. }
      split; [exact Hnd | split].
      * intros m. rewrite Hsame. apply Hin.
      * intros m. rewrite Hsame. apply Hdl.
  - destruct He as (Hlk & Hh). rewrite Hlk.
    split; [exact Hnd | split]; intros m; rewrite Hh; [apply Hin | apply Hdl].
Qed.

Lemma cache_inv_init (e : env W) : cache_inv L (init e).
Proof.
  split; [apply NoDup_nil_2 | split].
  - intros name. simpl. unfold handle_of; simpl.
    destruct (String.eqb name "time"), (String.eqb name "gettimeofday"),
      (String.eqb name "clock_gettime"); split; (tauto || congruence).
  - intros name. unfold handle_of; simpl.
    destruct (String.eqb name "time"), (String.eqb name "gettimeofday"),
      (String.eqb name "clock_gettime"); congruence.
Qed.

Lemma cache_inv_count (s : state W) (n : string) :
  cache_inv L s -> (lookup_count n s <= 1)%nat.
Proof.
  intros (Hnd & _). unfold lookup_count.
  apply NoDup_ListNoDup in Hnd.
  apply (proj1 (List.NoDup_count_occ String.string_dec (lookups s)) Hnd).
Qed.

(** Induction over a run: a relation that every event respects and that
    composes holds from the first state to the last. *)
Lemma run_ind (R : state W -> state W -> Prop) :
  (forall s, R s s) ->
  (forall s1 s2 s3, R s1 s2 -> R s2 s3 -> R s1 s3) ->
  (forall ev s r s', step L ev s = Some (r, s') -> R s s') ->
  forall evs s rs s', run L evs s = Some (rs, s') -> R s s'.
Proof.
  intros Hrefl Htrans Hstep evs.
  induction evs as [| ev evs IH]; intros s rs s' H; simpl in H.
  - injection H as _ <-. apply Hrefl.
  - unfold bind, ret in H.
    destruct (step L ev s) as [[r s1] |] eqn:Hs; [| discriminate H].
    destruct (run L evs s1) as [[rs1 s2] |] eqn:Hr; [| discriminate H].
    injection H as _ <-.
    apply (Htrans s s1 s2); [apply (Hstep ev s r s1 Hs) | apply (IH s1 rs1 s2 Hr)].
Qed.

Lemma run_travel (evs : list (@event W)) (s : state W)
      (rs : list (option Z)) (s' : state W) :
  run L evs s = Some (rs, s') -> travel s' = travel s.
Proof.
  apply (run_ind (fun a b => travel b = travel a)); [reflexivity | congruence |].
  intros ev a r b H. apply (step_sound ev a r b H).
Qed.

(** Every [time] call of a run returns the [travel] the run started with. *)
Lemma run_time_results (evs : list (@event W)) :
  forall (s : state W) (rs : list (option Z)) (s' : state W),
    run L evs s = Some (rs, s') ->
    forall (i : nat) (x : Z),
      evs !! i = Some (Call_time x) -> rs !! i = Some (Some (travel s)).
Proof.
  induction evs as [| ev evs IH]; intros s rs s' H i x Hi.
  - rewrite lookup_nil in Hi. discriminate Hi.
  - simpl in H. unfold bind, ret in H.
    destruct (step L ev s) as [[r s1] |] eqn:Hs; [| discriminate H].
    destruct (run L evs s1) as [[rs1 s2] |] eqn:Hr; [| discriminate H].
    injection H as <- <-.
    destruct i as [| i]; simpl in Hi |- *.
    + injection Hi as ->. simpl in Hs. unfold bind, ret in Hs.
      rewrite time_eq in Hs.
      destruct (real_time L x s) as [[g s0] |] eqn:Hg; [| discriminate Hs].
      injection Hs as <- _.
      rewrite (frame_travel _ _ (real_time_frame L x s g s0 Hg)). reflexivity.
    + rewrite (IH s1 rs1 s2 Hr i x Hi).
      destruct (step_sound ev s r s1 Hs) as (-> & _). reflexivity.
Qed.

Lemma run_cache_inv (evs : list (@event W)) (s : state W)
      (rs : list (option Z)) (s' : state W) :
  run L evs s = Some (rs, s') -> cache_inv L s -> cache_inv L s'.
Proof.
  apply (run_ind (fun a b => cache_inv L a -> cache_inv L b)); [tauto | tauto |].
  intros ev a r b H. apply step_effect_cache_inv with ev, (step_sound ev a r b H).
Qed.

Lemma run_stable (evs : list (@event W)) (s : state W)
      (rs : list (option Z)) (s' : state W) (n : string) :
  run L evs s = Some (rs, s') -> handle_of n s <> 0 ->
  handle_of n s' = handle_of n s /\ lookup_count n s' = lookup_count n s.
Proof.
  apply (run_ind (fun a b => handle_of n a <> 0 ->
           handle_of n b = handle_of n a /\ lookup_count n b = lookup_count n a)).
  - tauto.
  - intros s1 s2 s3 H12 H23 Hn. destruct (H12 Hn) as [E1 C1].
    destruct H23 as [E2 C2]; [congruence |]. split; congruence.
  - intros ev a r b H. apply step_effect_stable with ev, (step_sound ev a r b H).
Qed.

End Runs.

(** ** The claims of the specification *)

(** C1. A wall-clock query that succeeds reports [travel] as its seconds,
    whatever seconds libc produced: [time] returns it (and stores it in a
    non-null pointee), [__gettimeofday], [gettimeofday] and [clock_gettime]
    with [CLOCK_REALTIME] store it in the [tv_sec] of a non-null record;
    [set_travel] leaves [travel] in the cell whatever the cell held; and
    over a whole run every [time] call returns the [travel] the run
    started with. *)
Theorem wall_clock_seconds_are_travel {W : Type} (L : libc W) :
  (forall x s g s1, real_time L x s = Some (g, s1) ->
     exists s', time L x s = Some (travel s, s')
       /\ (x <> 0 -> heap (outside s') !! x = Some (travel s)))
  /\ (forall x y s s1, real_gettimeofday L x y s = Some (0, s1) -> x <> 0 ->
     exists s', __gettimeofday L x y s = Some (0, s')
       /\ gettimeofday L x y s = Some (0, s')
       /\ heap (outside s') !! (x + offsetof_tv_sec) = Some (travel s))
  /\ (forall y s s1,
        libc_clock_gettime_call L CLOCK_REALTIME y s = Some (0, s1) -> y <> 0 ->
     exists s', clock_gettime L CLOCK_REALTIME y s = Some (0, s')
       /\ heap (outside s') !! (y + offsetof_tv_sec) = Some (travel s))
  /\ (forall a (s : state W), a <> 0 ->
     exists s', set_travel (Abs a) s = Some (tt, s')
       /\ heap (outside s') !! a = Some (travel s))
  /\ (forall evs s rs s', run L evs s = Some (rs, s') ->
     travel s' = travel s
     /\ forall i x, evs !! i = Some (Call_time x) ->
                    rs !! i = Some (Some (travel s))).
Proof.
  split; [| split; [| split; [| split]]].
  - intros x s g s1 H. rewrite (time_returns_travel L x s g s1 H).
    eexists. split; [reflexivity |]. intros Hx.
    destruct (Z.eqb_spec x 0); [contradiction | apply set_heap_same].
  - intros x y s s1 H Hx. unfold gettimeofday.
    rewrite (__gettimeofday_success L x y s s1 H).
    eexists. repeat split.
    destruct (Z.eqb_spec x 0); [contradiction | apply set_heap_same].
  - intros y s s1 H Hy. rewrite (clock_gettime_success L y s s1 H).
    eexists. split; [reflexivity |].
    destruct (Z.eqb_spec y 0); [contradiction | apply set_heap_same].
  - intros a s Ha. rewrite set_travel_Abs.
    eexists. split; [reflexivity |].
    destruct (Z.eqb_spec a 0); [contradiction | apply set_heap_same].
  - intros evs s rs s' H. split.
    + apply (run_travel L evs s rs s' H).
    + apply (run_time_results L evs s rs s' H).
Qed.

Lemma wall_clock_seconds_are_travel_witness :
  (exists s', time ticking 64 (init now) = Some (1661140800, s')
     /\ heap (outside s') !! 64 = Some 1661140800)
  /\ (exists s', gettimeofday ticking 64 0 (init now) = Some (0, s')
     /\ heap (outside s') !! 64 = Some 1661140800)
  /\ (exists s', clock_gettime ticking 0 64 (init now) = Some (0, s')
     /\ heap (outside s') !! 64 = Some 1661140800)
  /\ (exists rs s', run ticking sample_run (init now) = Some (rs, s')
     /\ rs !! 0%nat = Some (Some 1661140800)
     /\ rs !! 3%nat = Some (Some 1661140800)).
Proof.
  destruct (wall_clock_seconds_are_travel ticking) as (Ht & Hg & Hc & _ & Hr).
  split; [| split; [| split]].
  - destruct (Ht 64 (init now) _ _ eq_refl) as (s' & H1 & H2).
    exists s'. split; [exact H1 | apply H2; lia].
  - assert (Hx : 64 <> 0) by lia.
    destruct (Hg 64 0 (init now) _ eq_refl Hx) as (s' & _ & H1 & H2).
    exists s'. split; [exact H1 | exact H2].
  - assert (Hy : 64 <> 0) by lia.
    destruct (Hc 64 (init now) _ eq_refl Hy) as (s' & H1 & H2).
    exists s'. split; [exact H1 | exact H2].
  - destruct (run ticking sample_run (init now)) as [[rs s'] |] eqn:Hrun;
      [| vm_compute in Hrun; discriminate Hrun].
    destruct (Hr sample_run (init now) rs s' Hrun) as [_ Hres].
    exists rs, s'. split; [reflexivity |].
    split; [apply (Hres 0%nat 0) | apply (Hres 3%nat 64)]; reflexivity.
Defined.

(** C2. When the genuine call fails, [__gettimeofday], [gettimeofday] and
    [clock_gettime] hand the failure back and store nothing; [time] does
    not look at what libc's [time] returned.  Under a libc whose queries
    fail ([time] with [(time_t)-1], the others with [-1]) and write
    nothing, [time(x)] with a non-null [x] returns [travel] and stores it
    through [x], while the other three return [-1] and store nothing. *)
Theorem time_overwrites_failure :
  let s := init (Env ∅ tt) in
  let s1 := State 1661140800 4096 0 0 [] (Env ∅ tt) ["time"%string] [] in
  let s2 := State 1661140800 0 4096 0 [] (Env ∅ tt) ["gettimeofday"%string] [] in
  let s3 := State 1661140800 0 0 4096 [] (Env ∅ tt) ["clock_gettime"%string] [] in
  real_time failing 64 s = Some (-1, s1)
  /\ time failing 64 s = Some (1661140800, set_heap 64 1661140800 s1)
  /\ stores (set_heap 64 1661140800 s1) = [64]
  /\ heap (outside (set_heap 64 1661140800 s1)) !! 64 = Some 1661140800
  /\ heap (outside s1) !! 64 = None
  /\ __gettimeofday failing 64 0 s = Some (-1, s2)
  /\ gettimeofday failing 64 0 s = Some (-1, s2)
  /\ clock_gettime failing CLOCK_REALTIME 64 s = Some (-1, s3).
Proof. vm_compute. repeat split. Qed.

(** C3. For a clock other than [CLOCK_REALTIME], [clock_gettime] is the
    call through [libc_clock_gettime] and nothing more: it returns libc's
    result code and leaves the outside (the whole output record with it)
    as libc left it, without a store of its own. *)
Theorem clock_gettime_other_clocks_pass_through {W : Type} (L : libc W)
        (x y : Z) (s : state W) :
  x <> CLOCK_REALTIME ->
  clock_gettime L x y s = libc_clock_gettime_call L x y s
  /\ (forall r e,
        resolved L (libc_clock_gettime s) "clock_gettime" <> 0 ->
        call_clock_gettime L (resolved L (libc_clock_gettime s) "clock_gettime")
                           x y (outside s) = Some (r, e) ->
        exists s', clock_gettime L x y s = Some (to_int r, s')
          /\ outside s' = e /\ stores s' = stores s /\ travel s' = travel s).
Proof.
  intros Hx. split; [apply clock_gettime_other_clock, Hx |].
  intros r e Hf Hcall.
  rewrite (clock_gettime_other_clock L x y s Hx), libc_clock_gettime_call_eq.
  simpl. destruct (Z.eqb_spec (resolved L (libc_clock_gettime s) "clock_gettime") 0);
    [contradiction |].
  rewrite Hcall. eexists. repeat split.
Qed.

Lemma clock_gettime_other_clocks_pass_through_witness :
  exists s', clock_gettime ticking CLOCK_MONOTONIC 64 (init now) = Some (0, s')
    /\ heap (outside s') !! (64 + offsetof_tv_sec) = Some 1793318400
    /\ heap (outside s') !! (64 + offsetof_tv_nsec) = Some 250000000
    /\ stores s' = [].
Proof.
  assert (Hx : CLOCK_MONOTONIC <> CLOCK_REALTIME) by (unfold CLOCK_MONOTONIC, CLOCK_REALTIME; lia).
  destruct (clock_gettime_other_clocks_pass_through ticking CLOCK_MONOTONIC 64
              (init now) Hx) as [_ H].
  assert (Hf : resolved ticking (libc_clock_gettime (init now)) "clock_gettime" <> 0)
    by (vm_compute; discriminate).
  destruct (H _ _ Hf eq_refl) as (s' & H1 & H2 & H3 & _).
  exists s'. split; [exact H1 |]. rewrite H2, H3. repeat split.
Defined.

(** C4. A successful [__gettimeofday] or [gettimeofday], and a successful
    [clock_gettime] with [CLOCK_REALTIME], change one cell of what the
    genuine call left: the [tv_sec] of the record.  The [tv_usec] and the
    [tv_nsec] keep the value the genuine call wrote, and the world is as
    the genuine call left it. *)
Theorem subsecond_fields_kept {W : Type} (L : libc W) :
  (forall x y s s1, real_gettimeofday L x y s = Some (0, s1) ->
     exists s', __gettimeofday L x y s = Some (0, s')
       /\ gettimeofday L x y s = Some (0, s')
       /\ world (outside s') = world (outside s1)
       /\ (forall a, a <> x + offsetof_tv_sec ->
             heap (outside s') !! a = heap (outside s1) !! a)
       /\ heap (outside s') !! (x + offsetof_tv_usec)
          = heap (outside s1) !! (x + offsetof_tv_usec))
  /\ (forall y s s1,
        libc_clock_gettime_call L CLOCK_REALTIME y s = Some (0, s1) ->
     exists s', clock_gettime L CLOCK_REALTIME y s = Some (0, s')
       /\ world (outside s') = world (outside s1)
       /\ (forall a, a <> y + offsetof_tv_sec ->
             heap (outside s') !! a = heap (outside s1) !! a)
       /\ heap (outside s') !! (y + offsetof_tv_nsec)
          = heap (outside s1) !! (y + offsetof_tv_nsec)).
Proof.
  assert (Hframe : forall (x t : Z) (s1 : state W),
    let s' := if x =? 0 then s1 else set_heap (x + offsetof_tv_sec) t s1 in
    world (outside s') = world (outside s1)
    /\ (forall a, a <> x + offsetof_tv_sec ->
          heap (outside s') !! a = heap (outside s1) !! a)
    /\ heap (outside s') !! (x + 8) = heap (outside s1) !! (x + 8)).
  { intros x t s1. destruct (x =? 0); simpl; [repeat split |].
    split; [reflexivity |]. split.
    - intros a Ha. apply lookup_insert_ne. congruence.
    - apply lookup_insert_ne. unfold offsetof_tv_sec. lia. }
  split.
  - intros x y s s1 H. unfold gettimeofday.
    rewrite (__gettimeofday_success L x y s s1 H).
    eexists. split; [reflexivity |]. split; [reflexivity |]. apply Hframe.
  - intros y s s1 H. rewrite (clock_gettime_success L y s s1 H).
    eexists. split; [reflexivity |]. apply Hframe.
Qed.

Lemma subsecond_fields_kept_witness :
  (exists s', gettimeofday ticking 64 0 (init now) = Some (0, s')
     /\ heap (outside s') !! (64 + offsetof_tv_usec) = Some 250000)
  /\ (exists s', clock_gettime ticking CLOCK_REALTIME 64 (init now) = Some (0, s')
     /\ heap (outside s') !! (64 + offsetof_tv_nsec) = Some 250000000).
Proof.
  destruct (subsecond_fields_kept ticking) as (Hg & Hc).
  split.
  - destruct (Hg 64 0 (init now) _ eq_refl) as (s' & _ & H1 & _ & _ & H2).
    exists s'. split; [exact H1 | rewrite H2; reflexivity].
  - destruct (Hc 64 (init now) _ eq_refl) as (s' & H1 & _ & _ & H2).
    exists s'. split; [exact H1 | rewrite H2; reflexivity].
Defined.

(** C5. A null output pointer is never stored through.  [set_travel]
    returns at once on [NULL], and [&x->tv_sec] of a null record is [NULL];
    so with a null pointer each interceptor returns when the genuine call
    does and leaves the state exactly as the genuine call left it.
    [time(NULL)] still returns [travel].  A null second argument of
    [__gettimeofday] never makes the shim fault either. *)
Theorem null_pointers_skipped {W : Type} (L : libc W) :
  (forall s : state W, set_travel (Abs 0) s = Some (tt, s))
  /\ (forall s : state W, set_travel (tv_sec_of 0) s = Some (tt, s))
  /\ (forall s g s1, real_time L 0 s = Some (g, s1) ->
        time L 0 s = Some (travel s, s1))
  /\ (forall y s g s1, real_gettimeofday L 0 y s = Some (g, s1) ->
        __gettimeofday L 0 y s = Some (g, s1)
        /\ gettimeofday L 0 y s = Some (g, s1))
  /\ (forall x s g s1, libc_clock_gettime_call L x 0 s = Some (g, s1) ->
        clock_gettime L x 0 s = Some (g, s1))
  /\ (forall x s g s1, real_gettimeofday L x 0 s = Some (g, s1) ->
        exists s', __gettimeofday L x 0 s = Some (g, s')).
Proof.
  split; [intros s; apply (set_travel_Abs 0 s) |].
  split; [intros s; apply (set_travel_tv_sec 0 s) |].
  split; [intros s g s1 H; apply (time_returns_travel L 0 s g s1 H) |].
  assert (Hg : forall x y s g s1, real_gettimeofday L x y s = Some (g, s1) ->
            __gettimeofday L x y s =
            Some (g, if (g =? 0) && negb (x =? 0)
                     then set_heap (x + offsetof_tv_sec) (travel s) s1 else s1)).
  { intros x y s g s1 H. destruct (Z.eqb_spec g 0) as [-> | Hne].
    - rewrite (__gettimeofday_success L x y s s1 H). destruct (x =? 0); reflexivity.
    - apply (__gettimeofday_failure L x y s g s1 H Hne). }
  split; [| split].
  - intros y s g s1 H. unfold gettimeofday. rewrite (Hg 0 y s g s1 H).
    rewrite andb_false_r. split; reflexivity.
  - intros x s g s1 H. rewrite clock_gettime_eq, H.
    destruct ((g =? 0) && (CLOCK_REALTIME =? x)) eqn:Hc; [| reflexivity].
    apply andb_prop in Hc. destruct Hc as [Hc _].
    apply Z.eqb_eq in Hc. subst g. reflexivity.
  - intros x s g s1 H. rewrite (Hg x 0 s g s1 H). eexists. reflexivity.
Qed.

Lemma null_pointers_skipped_witness :
  exists s1, real_time ticking 0 (init now) = Some (1793318400, s1)
    /\ time ticking 0 (init now) = Some (1661140800, s1)
    /\ stores s1 = [].
Proof.
  destruct (null_pointers_skipped ticking) as (_ & _ & Ht & _).
  eexists. split; [reflexivity |]. split.
  - apply (Ht (init now) 1793318400). reflexivity.
  - reflexivity.
Defined.

(** C6. [time] sets both its result and, through a non-null [x], the
    pointee to [travel]; in a process started with the default
    configuration, after any run of calls and host activity, that value
    is 1661140800 whatever the real clock says. *)
Theorem time_reports_default {W : Type} (L : libc W) :
  (forall x s g s1, real_time L x s = Some (g, s1) ->
     time L x s = Some (travel s, if x =? 0 then s1 else set_heap x (travel s) s1)
     /\ (x <> 0 ->
         heap (outside (set_heap x (travel s) s1)) !! x = Some (travel s)))
  /\ (forall e evs rs s x g s1,
        run L evs (init e) = Some (rs, s) ->
        real_time L x s = Some (g, s1) ->
        exists s', time L x s = Some (1661140800, s')
          /\ (x <> 0 -> heap (outside s') !! x = Some 1661140800)).
Proof.
  split.
  - intros x s g s1 H. split; [apply (time_returns_travel L x s g s1 H) |].
    intros _. apply set_heap_same.
  - intros e evs rs s x g s1 Hrun H.
    rewrite (time_returns_travel L x s g s1 H).
    rewrite (run_travel L evs (init e) rs s Hrun). simpl.
    eexists. split; [reflexivity |]. intros Hx.
    destruct (Z.eqb_spec x 0); [contradiction | apply set_heap_same].
Qed.

Lemma time_reports_default_witness :
  exists rs s s',
    run ticking sample_run (init now) = Some (rs, s)
    /\ time ticking 64 s = Some (1661140800, s')
    /\ heap (outside s') !! 64 = Some 1661140800.
Proof.
  destruct (run ticking sample_run (init now)) as [[rs s] |] eqn:Hrun;
    [| vm_compute in Hrun; discriminate Hrun].
  destruct (real_time ticking 64 s) as [[g s1] |] eqn:Hg.
  - destruct (time_reports_default ticking) as (_ & Hd).
    destruct (Hd now sample_run rs s 64 g s1 Hrun Hg) as (s' & H1 & H2).
    exists rs, s, s'. split; [reflexivity |]. split; [exact H1 | apply H2; lia].
  - vm_compute in Hrun. injection Hrun as <- <-.
    vm_compute in Hg. discriminate Hg.
Defined.

(** C7. Each symbol is looked up at most once.  A call whose handle is
    still null looks its symbol up and caches the answer of the loader; a
    call whose handle is set goes straight through the handle, with no
    lookup; over any run of a process started by the loader no name is
    looked up twice, and a handle that is set never changes again. *)
Theorem resolver_looks_up_once {W : Type} (L : libc W) :
  (forall ev s r s' name,
     step L ev s = Some (r, s') -> symbol_of ev = Some name ->
     handle_of name s' <> 0
     /\ (handle_of name s = 0 ->
         handle_of name s' = dlsym_next L name
         /\ lookups s' = lookups s ++ [name])
     /\ (handle_of name s <> 0 ->
         handle_of name s' = handle_of name s /\ lookups s' = lookups s))
  /\ (forall x s, libc_time s <> 0 ->
        real_time L x s =
        match call_time L (libc_time s) x (outside s) with
        | Some (r, e) => Some (to_time_t r, set_outside e s)
        | None => None
        end)
  /\ (forall x y s, libc_gettimeofday s <> 0 ->
        real_gettimeofday L x y s =
        match call_gettimeofday L (libc_gettimeofday s) x y (outside s) with
        | Some (r, e) => Some (to_time_t (to_int r), set_outside e s)
        | None => None
        end)
  /\ (forall x y s, libc_clock_gettime s <> 0 ->
        libc_clock_gettime_call L x y s =
        match call_clock_gettime L (libc_clock_gettime s) x y (outside s) with
        | Some (r, e) => Some (to_int r, set_outside e s)
        | None => None
        end)
  /\ (forall e evs rs s,
        run L evs (init e) = Some (rs, s) ->
        forall name, (lookup_count name s <= 1)%nat)
  /\ (forall evs s rs s' name,
        run L evs s = Some (rs, s') -> handle_of name s <> 0 ->
        handle_of name s' = handle_of name s
        /\ lookup_count name s' = lookup_count name s).
Proof.
  split; [| split; [| split; [| split; [| split]]]].
  - intros ev s r s' name Hstep Hsym.
    destruct (step_sound L ev s r s' Hstep) as (_ & _ & He).
    rewrite Hsym in He. destruct He as (Hres & Hnz & Hlk & _).
    unfold resolved, looked_up in *.
    split; [exact Hnz |].
    destruct (Z.eqb_spec (handle_of name s) 0) as [Hz | Hz].
    + split; [intros _; split; [exact Hres | exact Hlk] |].
      intros Hc. contradiction.
    + rewrite app_nil_r in Hlk. split; [intros Hc; contradiction |].
      intros _. split; [exact Hres | exact Hlk].
  - intros x s Hh. rewrite real_time_eq. unfold resolved, looked_up.
    destruct (Z.eqb_spec (libc_time s) 0); [contradiction |]. simpl.
    destruct (Z.eqb_spec (libc_time s) 0); [contradiction |].
    rewrite app_nil_r. reflexivity.
  - intros x y s Hh. rewrite real_gettimeofday_eq. unfold resolved, looked_up.
    destruct (Z.eqb_spec (libc_gettimeofday s) 0); [contradiction |]. simpl.
    destruct (Z.eqb_spec (libc_gettimeofday s) 0); [contradiction |].
    rewrite app_nil_r. reflexivity.
  - intros x y s Hh. rewrite libc_clock_gettime_call_eq. unfold resolved, looked_up.
    destruct (Z.eqb_spec (libc_clock_gettime s) 0); [contradiction |]. simpl.
    destruct (Z.eqb_spec (libc_clock_gettime s) 0); [contradiction |].
    rewrite app_nil_r. reflexivity.
  - intros e evs rs s Hrun name. apply (cache_inv_count L).
    apply (run_cache_inv L evs (init e) rs s Hrun), cache_inv_init.
  - intros evs s rs s' name Hrun. apply (run_stable L evs s rs s' name Hrun).
Qed.

Lemma resolver_looks_up_once_witness :
  exists rs s,
    run ticking sample_run (init now) = Some (rs, s)
    /\ lookups s = ["time"; "gettimeofday"; "clock_gettime"]%string
    /\ (lookup_count "time" s <= 1)%nat
    /\ (lookup_count "gettimeofday" s <= 1)%nat
    /\ (lookup_count "clock_gettime" s <= 1)%nat.
Proof.
  destruct (run ticking sample_run (init now)) as [[rs s] |] eqn:Hrun;
    [| vm_compute in Hrun; discriminate Hrun].
  destruct (resolver_looks_up_once ticking) as (_ & _ & _ & _ & Hc & _).
  pose proof (Hc now sample_run rs s Hrun) as Hle.
  exists rs, s. split; [reflexivity |]. split.
  - vm_compute in Hrun. injection Hrun as _ <-. reflexivity.
  - repeat split; apply Hle.
Defined.

(** C8. No operation of the shim assigns [travel]: one event leaves it as
    it was, so does any run, and a process started with the default keeps
    1661140800 for ever. *)
Theorem travel_never_mutated {W : Type} (L : libc W) :
  (forall ev s r s', step L ev s = Some (r, s') -> travel s' = travel s)
  /\ (forall evs s rs s', run L evs s = Some (rs, s') -> travel s' = travel s)
  /\ (forall e evs rs s',
        run L evs (init e) = Some (rs, s') -> travel s' = 1661140800).
Proof.
  split; [| split].
  - intros ev s r s' H. apply (step_sound L ev s r s' H).
  - intros evs s rs s'. apply run_travel.
  - intros e evs rs s' H. apply (run_travel L evs (init e) rs s' H).
Qed.

Lemma travel_never_mutated_witness :
  exists rs s,
    run ticking sample_run (init now) = Some (rs, s)
    /\ travel s = 1661140800
    /\ world (outside s) = (2000000005, 7).
Proof.
  destruct (run ticking sample_run (init now)) as [[rs s] |] eqn:Hrun;
    [| vm_compute in Hrun; discriminate Hrun].
  destruct (travel_never_mutated ticking) as (_ & _ & Hd).
  exists rs, s. split; [reflexivity |]. split.
  - apply (Hd now sample_run rs s Hrun).
  - vm_compute in Hrun. injection Hrun as _ <-. reflexivity.
Defined.

(** C9. [gettimeofday] is [__gettimeofday]: same result and same final
    state on every pair of arguments and in every state. *)
Theorem gettimeofday_is___gettimeofday {W : Type} (L : libc W)
        (x y : Z) (s : state W) :
  gettimeofday L x y s = __gettimeofday L x y s.
Proof. reflexivity. Qed.

(** C10. The time-of-day interceptors pass their second argument to libc
    and do nothing else with it.  After the genuine call the shim makes at
    most one store, at [&x->tv_sec]; every other cell, the cell [y] points
    to among them, and the world are as the genuine call left them. *)
Theorem timezone_argument_untouched {W : Type} (L : libc W)
        (x y : Z) (s : state W) (g : Z) (s1 : state W) :
  real_gettimeofday L x y s = Some (g, s1) ->
  exists s',
    __gettimeofday L x y s = Some (g, s')
    /\ gettimeofday L x y s = Some (g, s')
    /\ (stores s' = stores s
        \/ (x <> 0 /\ stores s' = stores s ++ [x + offsetof_tv_sec]))
    /\ (forall a, a <> x + offsetof_tv_sec ->
          heap (outside s') !! a = heap (outside s1) !! a)
    /\ (y <> x + offsetof_tv_sec ->
          heap (outside s') !! y = heap (outside s1) !! y)
    /\ world (outside s') = world (outside s1).
Proof.
  intros H. unfold gettimeofday.
  pose proof (frame_stores _ _ (real_gettimeofday_frame L x y s g s1 H)) as Hst.
  destruct (Z.eqb_spec g 0) as [-> | Hne].
  - rewrite (__gettimeofday_success L x y s s1 H).
    eexists. split; [reflexivity |]. split; [reflexivity |].
    destruct (Z.eqb_spec x 0) as [Hx | Hx].
    + split; [left; exact Hst |]. repeat split.
    + split; [right; split; [exact Hx | simpl; rewrite Hst; reflexivity] |].
      split; [intros a Ha; apply set_heap_other, Ha |].
      split; [intros Hy; apply set_heap_other, Hy | reflexivity].
  - rewrite (__gettimeofday_failure L x y s g s1 H Hne).
    eexists. split; [reflexivity |]. split; [reflexivity |].
    split; [left; exact Hst |]. repeat split.
Qed.

Lemma timezone_argument_untouched_witness :
  exists s', gettimeofday ticking 64 128 (init now) = Some (0, s')
    /\ stores s' = [64]
    /\ heap (outside s') !! 128 = None.
Proof.
  destruct (real_gettimeofday ticking 64 128 (init now)) as [[g s1] |] eqn:Hg;
    [| vm_compute in Hg; discriminate Hg].
  destruct (timezone_argument_untouched ticking 64 128 (init now) g s1 Hg)
    as (s' & _ & H1 & _ & _ & H2 & _).
  assert (Hy : 128 <> 64 + offsetof_tv_sec) by (unfold offsetof_tv_sec; lia).
  specialize (H2 Hy).
  vm_compute in Hg. injection Hg as <- <-.
  exists s'. split; [exact H1 |]. split.
  - unfold gettimeofday in H1. rewrite __gettimeofday_eq in H1.
    vm_compute in H1. injection H1 as <-. reflexivity.
  - rewrite H2. reflexivity.
Defined.

(** ** Further properties of the interceptors *)

(** X1. A failure of libc's [gettimeofday] comes back unchanged through
    [real_gettimeofday] (declared to return [time_t]) and [__gettimeofday]:
    the interceptors return libc's [int], leave the outside as libc left
    it and store nothing. *)
Theorem gettimeofday_failure_handed_back {W : Type} (L : libc W)
        (x y : Z) (s : state W) (r : Z) (e : env W) :
  resolved L (libc_gettimeofday s) "gettimeofday" <> 0 ->
  call_gettimeofday L (resolved L (libc_gettimeofday s) "gettimeofday")
                    x y (outside s) = Some (r, e) ->
  to_int r <> 0 ->
  exists s',
    __gettimeofday L x y s = Some (to_int r, s')
    /\ gettimeofday L x y s = Some (to_int r, s')
    /\ outside s' = e /\ stores s' = stores s /\ travel s' = travel s.
Proof.
  intros Hf Hcall Hr. unfold gettimeofday.
  rewrite __gettimeofday_eq, real_gettimeofday_eq. simpl.
  destruct (Z.eqb_spec (resolved L (libc_gettimeofday s) "gettimeofday") 0);
    [contradiction |].
  rewrite Hcall, to_int_via_time_t.
  destruct (Z.eqb_spec (to_int r) 0); [contradiction |].
  eexists. repeat split.
Qed.

Lemma gettimeofday_failure_handed_back_witness :
  exists s', gettimeofday failing 64 0 (init (Env ∅ tt)) = Some (-1, s')
    /\ stores s' = [] /\ heap (outside s') !! 64 = None.
Proof.
  assert (Hf : resolved failing (libc_gettimeofday (init (Env ∅ tt)))
                 "gettimeofday" <> 0) by (vm_compute; discriminate).
  assert (Hr : to_int (-1) <> 0) by (vm_compute; discriminate).
  destruct (gettimeofday_failure_handed_back failing 64 0 (init (Env ∅ tt))
              (-1) (Env ∅ tt) Hf eq_refl Hr) as (s' & _ & H1 & H2 & H3 & _).
  exists s'. split; [exact H1 |]. rewrite H2, H3. split; reflexivity.
Defined.

(** X2. A failure of libc's [clock_gettime] comes back unchanged for every
    clock, [CLOCK_REALTIME] included: same result code, the outside as
    libc left it, no store. *)
Theorem clock_gettime_failure_handed_back {W : Type} (L : libc W)
        (x y : Z) (s : state W) (r : Z) (e : env W) :
  resolved L (libc_clock_gettime s) "clock_gettime" <> 0 ->
  call_clock_gettime L (resolved L (libc_clock_gettime s) "clock_gettime")
                     x y (outside s) = Some (r, e) ->
  to_int r <> 0 ->
  exists s',
    clock_gettime L x y s = Some (to_int r, s')
    /\ outside s' = e /\ stores s' = stores s /\ travel s' = travel s.
Proof.
  intros Hf Hcall Hr.
  rewrite clock_gettime_eq, libc_clock_gettime_call_eq. simpl.
  destruct (Z.eqb_spec (resolved L (libc_clock_gettime s) "clock_gettime") 0);
    [contradiction |].
  rewrite Hcall.
  destruct (Z.eqb_spec (to_int r) 0); [contradiction |].
  eexists. repeat split.
Qed.

Lemma clock_gettime_failure_handed_back_witness :
  exists s', clock_gettime ticking 7 64 (init now) = Some (-1, s')
    /\ stores s' = [] /\ heap (outside s') !! 64 = None.
Proof.
  assert (Hf : resolved ticking (libc_clock_gettime (init now))
                 "clock_gettime" <> 0) by (vm_compute; discriminate).
  assert (Hr : to_int (-1) <> 0) by (vm_compute; discriminate).
  destruct (clock_gettime_failure_handed_back ticking 7 64 (init now)
              (-1) now Hf eq_refl Hr) as (s' & H1 & H2 & H3 & _).
  exists s'. split; [exact H1 |]. rewrite H2, H3. split; reflexivity.
Defined.



(** One event appends at most one address to the trace of stores: the
    non-null seconds cell of the call, which then holds [travel]. *)
Lemma step_stores {W : Type} (L : libc W) (ev : @event W) (s : state W)
      (r : option Z) (s' : state W) :
  step L ev s = Some (r, s') ->
  stores s' = stores s
  \/ exists a, seconds_cell ev = Some a /\ a <> 0
       /\ stores s' = stores s ++ [a]
       /\ heap (outside s') !! a = Some (travel s).
Proof.
  assert (Hcell : forall (p : Z) (s1 : state W),
    travel s1 = travel s -> stores s1 = stores s ->
    let s2 := if p =? 0 then s1
              else set_heap (p + offsetof_tv_sec) (travel s1) s1 in
    stores s2 = stores s
    \/ (p + offsetof_tv_sec <> 0
        /\ stores s2 = stores s ++ [p + offsetof_tv_sec]
        /\ heap (outside s2) !! (p + offsetof_tv_sec) = Some (travel s))).
  { intros p s1 Ht Hst. destruct (Z.eqb_spec p 0) as [Hp | Hp]; simpl.
    - left. exact Hst.
    - right. rewrite Hst, Ht. split; [unfold offsetof_tv_sec; lia |].
      split; [reflexivity | apply lookup_insert_eq]. }
  destruct ev as [x | x y | x y | x y | h]; unfold step, bind, ret.
  - rewrite time_eq.
    destruct (real_time L x s) as [[g s1] |] eqn:Hg; [| discriminate].
    intros H. injection H as _ <-.
    destruct (real_time_frame L x s g s1 Hg) as [Ht _ Hst].
    destruct (Z.eqb_spec x 0) as [Hx | Hx]; [left; exact Hst |].
    right. exists x. simpl. rewrite Hst, Ht.
    repeat split; [exact Hx | apply lookup_insert_eq].
  - rewrite __gettimeofday_eq.
    destruct (real_gettimeofday L x y s) as [[g s1] |] eqn:Hg; [| discriminate].
    destruct (real_gettimeofday_frame L x y s g s1 Hg) as [Ht _ Hst].
    destruct (to_int g =? 0); intros H; injection H as _ <-;
      [| left; exact Hst].
    destruct (Hcell x s1 Ht Hst) as [Hl | Hr]; [left; exact Hl |].
    right. exists (x + offsetof_tv_sec). split; [reflexivity | exact Hr].
  - unfold gettimeofday. rewrite __gettimeofday_eq.
    destruct (real_gettimeofday L x y s) as [[g s1] |] eqn:Hg; [| discriminate].
    destruct (real_gettimeofday_frame L x y s g s1 Hg) as [Ht _ Hst].
    destruct (to_int g =? 0); intros H; injection H as _ <-;
      [| left; exact Hst].
    destruct (Hcell x s1 Ht Hst) as [Hl | Hr]; [left; exact Hl |].
    right. exists (x + offsetof_tv_sec). split; [reflexivity | exact Hr].
  - rewrite clock_gettime_eq.
    destruct (libc_clock_gettime_call L x y s) as [[g s1] |] eqn:Hg;
      [| discriminate].
    destruct (libc_clock_gettime_call_frame L x y s g s1 Hg) as [Ht _ Hst].
    unfold seconds_cell.
    destruct (CLOCK_REALTIME =? x), (g =? 0); simpl; intros H;
      injection H as _ <-; try (left; exact Hst).
    destruct (Hcell y s1 Ht Hst) as [Hl | Hr]; [left; exact Hl |].
    right. exists (y + offsetof_tv_sec). split; [reflexivity | exact Hr].
  - intros H. injection H as _ <-. left. reflexivity.
Qed.

Lemma run_stores {W : Type} (L : libc W) (evs : list (@event W)) :
  forall (s : state W) (rs : list (option Z)) (s' : state W),
    run L evs s = Some (rs, s') ->
    exists l, stores s' = stores s ++ l
      /\ Forall (fun a => a <> 0) l
      /\ (length l <= length evs)%nat.
Proof.
  induction evs as [| ev evs IH]; intros s rs s' H; simpl in H.
  - injection H as _ <-. exists []. rewrite app_nil_r.
    split; [reflexivity | split; [constructor | simpl; lia]].
  - unfold bind, ret in H.
    destruct (step L ev s) as [[r s1] |] eqn:Hs; [| discriminate H].
    destruct (run L evs s1) as [[rs1 s2] |] eqn:Hr; [| discriminate H].
    injection H as _ <-.
    destruct (IH s1 rs1 s2 Hr) as (l & Hl & Hnz & Hlen).
    destruct (step_stores L ev s r s1 Hs) as [Hst | (a & _ & Ha & Hst & _)].
    + exists l. rewrite Hl, Hst. split; [reflexivity |].
      split; [exact Hnz | simpl; lia].
    + exists (a :: l). rewrite Hl, Hst, <- app_assoc.
      split; [reflexivity |].
      split; [constructor; [exact Ha | exact Hnz] | simpl; lia].
Qed.

(** X4. One call makes the shim store at most once into the memory of the
    caller, and only at the seconds cell of that call (the pointee of
    [time], the [tv_sec] of the record, for [clock_gettime] only with
    [CLOCK_REALTIME]), never through a null pointer; after the store the
    cell holds [travel].  Host activity makes the shim store nothing. *)
Theorem one_store_at_the_seconds_cell {W : Type} (L : libc W)
        (ev : @event W) (s : state W) (r : option Z) (s' : state W) :
  step L ev s = Some (r, s') ->
  stores s' = stores s
  \/ exists a, seconds_cell ev = Some a /\ a <> 0
       /\ stores s' = stores s ++ [a]
       /\ heap (outside s') !! a = Some (travel s).
Proof. apply step_stores. Qed.

Lemma one_store_at_the_seconds_cell_witness :
  exists r s',
    step ticking (Call_clock_gettime CLOCK_REALTIME 112) (init now) = Some (r, s')
    /\ stores s' = [112]
    /\ heap (outside s') !! 112 = Some 1661140800.
Proof.
  destruct (step ticking (Call_clock_gettime CLOCK_REALTIME 112) (init now))
    as [[r s'] |] eqn:Hs; [| vm_compute in Hs; discriminate Hs].
  exists r, s'. split; [reflexivity |].
  destruct (one_store_at_the_seconds_cell ticking _ _ _ _ Hs)
    as [Hst | (a & Ha & _ & Hst & Hv)].
  - vm_compute in Hs. injection Hs as _ <-. discriminate Hst.
  - injection Ha as <-. split; [exact Hst | exact Hv].
Defined.

(** X5. Over a whole process the shim never stores through a null
    pointer, and it makes at most one store per event: the trace of
    stores of a run holds only non-null addresses and is no longer than
    the run. *)
Theorem stores_of_a_run {W : Type} (L : libc W) (e : env W)
        (evs : list (@event W)) (rs : list (option Z)) (s : state W) :
  run L evs (init e) = Some (rs, s) ->
  Forall (fun a => a <> 0) (stores s)
  /\ (length (stores s) <= length evs)%nat.
Proof.
  intros H. destruct (run_stores L evs (init e) rs s H) as (l & Hl & Hnz & Hlen).
  simpl in Hl. subst l. split; assumption.
Qed.

Lemma stores_of_a_run_witness :
  exists rs s,
    run ticking sample_run (init now) = Some (rs, s)
    /\ stores s = [80; 64; 96; 112]
    /\ Forall (fun a => a <> 0) (stores s)
    /\ (length (stores s) <= 7)%nat.
Proof.
  destruct (run ticking sample_run (init now)) as [[rs s] |] eqn:Hrun;
    [| vm_compute in Hrun; discriminate Hrun].
  destruct (stores_of_a_run ticking now sample_run rs s Hrun) as [Hnz Hlen].
  exists rs, s. split; [reflexivity |]. split.
  - vm_compute in Hrun. injection Hrun as _ <-. reflexivity.
  - split; [exact Hnz | exact Hlen].
Defined.

(** X6. Each interceptor is "call libc, then overwrite the seconds": when
    the code behind the handle returns, what the caller sees afterwards is
    what libc left with [travel] put in the seconds cell of a non-null
    pointer, and nothing else changed.  For [time] this holds whatever
    libc returned; for the other two when libc returned [0] (and, for
    [clock_gettime], the clock is [CLOCK_REALTIME]). *)
Theorem call_through_then_overwrite {W : Type} (L : libc W) :
  (forall x s r e,
     resolved L (libc_time s) "time" <> 0 ->
     call_time L (resolved L (libc_time s) "time") x (outside s) = Some (r, e) ->
     exists s', time L x s = Some (travel s, s')
       /\ outside s' = (if x =? 0 then e
                        else Env (<[x := travel s]> (heap e)) (world e))
       /\ travel s' = travel s /\ autos s' = autos s)
  /\ (forall x y s r e,
     resolved L (libc_gettimeofday s) "gettimeofday" <> 0 ->
     call_gettimeofday L (resolved L (libc_gettimeofday s) "gettimeofday")
                       x y (outside s) = Some (r, e) ->
     to_int r = 0 ->
     exists s', __gettimeofday L x y s = Some (0, s')
       /\ outside s' = (if x =? 0 then e
                        else Env (<[x + offsetof_tv_sec := travel s]> (heap e))
                                 (world e))
       /\ travel s' = travel s /\ autos s' = autos s)
  /\ (forall y s r e,
     resolved L (libc_clock_gettime s) "clock_gettime" <> 0 ->
     call_clock_gettime L (resolved L (libc_clock_gettime s) "clock_gettime")
                        CLOCK_REALTIME y (outside s) = Some (r, e) ->
     to_int r = 0 ->
     exists s', clock_gettime L CLOCK_REALTIME y s = Some (0, s')
       /\ outside s' = (if y =? 0 then e
                        else Env (<[y + offsetof_tv_sec := travel s]> (heap e))
                                 (world e))
       /\ travel s' = travel s /\ autos s' = autos s).
Proof.
  split; [| split].
  - intros x s r e Hf Hcall. rewrite time_eq, real_time_eq. cbv zeta.
    destruct (Z.eqb_spec (resolved L (libc_time s) "time") 0); [contradiction |].
    rewrite Hcall. eexists. split; [reflexivity |].
    destruct (x =? 0); simpl; repeat split.
  - intros x y s r e Hf Hcall Hr.
    rewrite __gettimeofday_eq, real_gettimeofday_eq. cbv zeta.
    destruct (Z.eqb_spec (resolved L (libc_gettimeofday s) "gettimeofday") 0);
      [contradiction |].
    rewrite Hcall, to_int_via_time_t, Hr. simpl.
    eexists. split; [reflexivity |].
    destruct (x =? 0); simpl; repeat split.
  - intros y s r e Hf Hcall Hr.
    rewrite clock_gettime_eq, libc_clock_gettime_call_eq. cbv zeta.
    destruct (Z.eqb_spec (resolved L (libc_clock_gettime s) "clock_gettime") 0);
      [contradiction |].
    rewrite Hcall, Hr. simpl.
    eexists. split; [reflexivity |].
    destruct (y =? 0); simpl; repeat split.
Qed.

Lemma call_through_then_overwrite_witness :
  (exists s', time ticking 64 (init now) = Some (1661140800, s')
     /\ outside s' = Env (<[64 := 1661140800]> ∅) (1793318401, 250000))
  /\ (exists s', __gettimeofday ticking 64 0 (init now) = Some (0, s')
     /\ heap (outside s') !! 64 = Some 1661140800
     /\ heap (outside s') !! 72 = Some 250000)
  /\ (exists s', clock_gettime ticking CLOCK_REALTIME 64 (init now) = Some (0, s')
     /\ heap (outside s') !! 64 = Some 1661140800
     /\ heap (outside s') !! 72 = Some 250000000).
Proof.
  destruct (call_through_then_overwrite ticking) as (Ht & Hg & Hc).
  split; [| split].
  - assert (Hf : resolved ticking (libc_time (init now)) "time" <> 0)
      by (vm_compute; discriminate).
    destruct (Ht 64 (init now) _ _ Hf eq_refl) as (s' & H1 & H2 & _).
    exists s'. split; [exact H1 |]. rewrite H2. vm_compute. reflexivity.
  - assert (Hf : resolved ticking (libc_gettimeofday (init now))
                   "gettimeofday" <> 0) by (vm_compute; discriminate).
    destruct (Hg 64 0 (init now) _ _ Hf eq_refl eq_refl) as (s' & H1 & H2 & _).
    exists s'. split; [exact H1 |]. rewrite H2. vm_compute. split; reflexivity.
  - assert (Hf : resolved ticking (libc_clock_gettime (init now))
                   "clock_gettime" <> 0) by (vm_compute; discriminate).
    destruct (Hc 64 (init now) _ _ Hf eq_refl eq_refl) as (s' & H1 & H2 & _).
    exists s'. split; [exact H1 |]. rewrite H2. vm_compute. split; reflexivity.
Defined.

(** X7. At every point of a process the cache agrees with the loader: a
    handle is set exactly when its symbol has been looked up, a set handle
    is the address the loader answered, and the shim has asked for no
    symbol other than [time], [gettimeofday] and [clock_gettime]. *)
Theorem cache_agrees_with_the_loader {W : Type} (L : libc W) (e : env W)
        (evs : list (@event W)) (rs : list (option Z)) (s : state W) :
  run L evs (init e) = Some (rs, s) ->
  (forall name, In name (lookups s) <-> handle_of name s <> 0)
  /\ (forall name, In name (lookups s) ->
        handle_of name s = dlsym_next L name
        /\ (name = "time" \/ name = "gettimeofday" \/ name = "clock_gettime")%string).
Proof.
  intros Hrun.
  destruct (run_cache_inv L evs (init e) rs s Hrun (cache_inv_init L e))
    as (_ & Hin & Hdl).
  split; [exact Hin |].
  intros name Hn. apply Hin in Hn. split; [apply Hdl, Hn |].
  unfold handle_of in Hn.
  destruct (String.eqb_spec name "time"); [left; assumption |].
  destruct (String.eqb_spec name "gettimeofday"); [right; left; assumption |].
  destruct (String.eqb_spec name "clock_gettime"); [right; right; assumption |].
  contradiction.
Qed.

Lemma cache_agrees_with_the_loader_witness :
  exists rs s,
    run ticking [Call___gettimeofday 64 0; Call_time 0] (init now) = Some (rs, s)
    /\ lookups s = ["gettimeofday"; "time"]%string
    /\ libc_gettimeofday s = 4112 /\ libc_time s = 4096
    /\ libc_clock_gettime s = 0.
Proof.
  destruct (run ticking [Call___gettimeofday 64 0; Call_time 0] (init now))
    as [[rs s] |] eqn:Hrun; [| vm_compute in Hrun; discriminate Hrun].
  destruct (cache_agrees_with_the_loader ticking now _ rs s Hrun) as [_ Hl].
  exists rs, s. split; [reflexivity |].
  assert (Hlk : lookups s = ["gettimeofday"; "time"]%string).
  { vm_compute in Hrun. injection Hrun as _ <-. reflexivity. }
  split; [exact Hlk |].
  split; [| split].
  - apply (Hl "gettimeofday"%string). rewrite Hlk. left. reflexivity.
  - apply (Hl "time"%string). rewrite Hlk. right. left. reflexivity.
  - vm_compute in Hrun. injection Hrun as _ <-. reflexivity.
Defined.

(** X8. [__gettimeofday] and [gettimeofday] share one handle, resolved
    under the name [gettimeofday]: once either has returned, a call of the
    other does no lookup and goes through the very same address. *)
Theorem time_of_day_entry_points_share_the_handle {W : Type} (L : libc W)
        (x y : Z) (s : state W) (r : Z) (s1 : state W) :
  __gettimeofday L x y s = Some (r, s1) ->
  libc_gettimeofday s1 = resolved L (libc_gettimeofday s) "gettimeofday"
  /\ libc_gettimeofday s1 <> 0
  /\ lookups s1 = lookups s ++ looked_up (libc_gettimeofday s) "gettimeofday"
  /\ (forall x' y' r' s2,
        gettimeofday L x' y' s1 = Some (r', s2) ->
        lookups s2 = lookups s1
        /\ libc_gettimeofday s2 = libc_gettimeofday s1
        /\ exists g e,
             call_gettimeofday L (libc_gettimeofday s1) x' y' (outside s1)
             = Some (g, e) /\ r' = to_int g).
Proof.
  intros H.
  destruct (step_sound L (Call___gettimeofday x y) s (Some r) s1) as (_ & _ & He).
  { simpl. unfold bind, ret. rewrite H. reflexivity. }
  simpl in He. destruct He as (Hres & Hnz & Hlk & _).
  change (handle_of "gettimeofday" s1) with (libc_gettimeofday s1) in Hres, Hnz.
  change (handle_of "gettimeofday" s) with (libc_gettimeofday s) in Hres, Hlk.
  split; [exact Hres |]. split; [exact Hnz |]. split; [exact Hlk |].
  intros x' y' r' s2 H2. unfold gettimeofday in H2.
  rewrite __gettimeofday_eq, real_gettimeofday_eq in H2. cbv zeta in H2.
  unfold resolved, looked_up in H2.
  destruct (Z.eqb_spec (libc_gettimeofday s1) 0) as [| _]; [contradiction |].
  destruct (Z.eqb_spec (libc_gettimeofday s1) 0) as [| _]; [contradiction |].
  destruct (call_gettimeofday L (libc_gettimeofday s1) x' y' (outside s1))
    as [[g e] |]; [| discriminate H2].
  rewrite to_int_via_time_t in H2.
  destruct (Z.eqb_spec (to_int g) 0) as [Hg | Hg]; injection H2 as <- <-.
  - destruct (x' =? 0); simpl; rewrite app_nil_r;
      (split; [reflexivity |]); (split; [reflexivity |]);
      exists g, e; (split; [reflexivity | symmetry; exact Hg]).
  - simpl. rewrite app_nil_r. split; [reflexivity |]. split; [reflexivity |].
    exists g, e. split; reflexivity.
Qed.

Lemma time_of_day_entry_points_share_the_handle_witness :
  exists r s1 r' s2,
    __gettimeofday ticking 64 0 (init now) = Some (r, s1)
    /\ gettimeofday ticking 96 0 s1 = Some (r', s2)
    /\ lookups s1 = ["gettimeofday"]%string
    /\ lookups s2 = lookups s1.
Proof.
  destruct (__gettimeofday ticking 64 0 (init now)) as [[r s1] |] eqn:H1;
    [| vm_compute in H1; discriminate H1].
  destruct (gettimeofday ticking 96 0 s1) as [[r' s2] |] eqn:H2.
  - destruct (time_of_day_entry_points_share_the_handle ticking 64 0 _ r s1 H1)
      as (_ & _ & Hlk & Hnext).
    destruct (Hnext 96 0 r' s2 H2) as (Hsame & _).
    exists r, s1, r', s2. split; [reflexivity |]. split; [exact H2 |].
    split; [exact Hlk | exact Hsame].
  - vm_compute in H1. injection H1 as <- <-. vm_compute in H2. discriminate H2.
Defined.

(** X9. Resolution is lazy and per symbol: an event leaves alone the
    handle of every symbol other than the one its interceptor calls
    through, and looks no such symbol up; host activity touches no handle
    at all. *)
Theorem other_symbols_left_alone {W : Type} (L : libc W) (ev : @event W)
        (s : state W) (r : option Z) (s' : state W) (n : string) :
  step L ev s = Some (r, s') ->
  symbol_of ev <> Some n ->
  handle_of n s' = handle_of n s /\ lookup_count n s' = lookup_count n s.
Proof.
  intros Hstep Hn. destruct (step_sound L ev s r s' Hstep) as (_ & _ & He).
  unfold lookup_count. destruct (symbol_of ev) as [name |].
  - destruct He as (_ & _ & Hlk & Hoth).
    assert (Hne : n <> name) by congruence.
    split; [apply Hoth, Hne |].
    rewrite Hlk, count_occ_app. unfold looked_up.
    destruct (handle_of name s =? 0); simpl; [| lia].
    destruct (String.string_dec name n); [congruence | lia].
  - destruct He as (Hlk & Hh). rewrite Hlk. split; [apply Hh | reflexivity].
Qed.

Lemma other_symbols_left_alone_witness :
  exists r s',
    step ticking (Call_time 64) (init now) = Some (r, s')
    /\ libc_gettimeofday s' = 0
    /\ lookup_count "gettimeofday" s' = 0%nat.
Proof.
  destruct (step ticking (Call_time 64) (init now)) as [[r s'] |] eqn:Hs;
    [| vm_compute in Hs; discriminate Hs].
  assert (Hn : symbol_of (@Call_time (Z * Z) 64) <> Some "gettimeofday"%string)
    by discriminate.
  destruct (other_symbols_left_alone ticking _ _ r s' "gettimeofday" Hs Hn)
    as [Hh Hc].
  exists r, s'. split; [reflexivity |]. split; [exact Hh | exact Hc].
Defined.
